(** * A shallow embedding of the raytracer skeleton

    The repository is a ray-tracer whose numeric kernels are left to be
    filled in: in the sources under [raytracer/] the body of most geometric
    and shading functions is the single statement
    [raise NotImplementedError], below a docstring that says what the
    function is meant to compute.  The functions with a real body are the
    [Vector] constructor and indexing, the [Matrix] constructor, the two
    matrix multiplications, [Triangle.__init__], [Scene.postprocess],
    [Scene.render] and the per-pixel drivers.

    Everything below follows the sources statement by statement.

    - Python [float]s are idealised as exact rationals ([Q]).  No theorem
      relies on rounding: the concrete inputs on which arithmetic is carried
      out are dyadic rationals, where binary64 arithmetic is exact, or lie
      well away from the threshold they are compared with.
    - Python exceptions are the left summand of an error monad.
    - In-place updates ([+=], [normalize], the pixel buffer) are modelled by
      returning the updated value. *)

From Stdlib Require Import ZArith QArith Qabs Qround Qminmax List Bool Lia.
Import ListNotations.

Local Open Scope Z_scope.

(** ** Exceptions and the error monad *)

Inductive exn : Type :=
| NotImplementedError
| AssertionError
| IndexError (idx : Z)
| RuntimeError
| TypeError
| ValueError
| ZeroDivisionError.

Definition result (A : Type) : Type := (exn + A)%type.

Definition ret {A : Type} (a : A) : result A := inr a.
Definition raise {A : Type} (e : exn) : result A := inl e.

Definition bind {A B : Type} (m : result A) (k : A -> result B) : result B :=
  match m with
  | inl e => inl e
  | inr a => k a
  end.

Declare Scope py_scope.
Delimit Scope py_scope with py.
Notation "x <- m ;; k" := (bind m (fun x => k))
  (at level 61, m at next level, right associativity) : py_scope.
Notation "m ;;; k" := (bind m (fun _ => k))
  (at level 61, right associativity) : py_scope.
Local Open Scope py_scope.

(** [for x in xs: ...], collecting the values, stopping at the first
    exception. *)
Fixpoint mapM {A B : Type} (f : A -> result B) (xs : list A) : result (list B) :=
  match xs with
  | [] => ret []
  | x :: xs' => y <- f x ;; ys <- mapM f xs' ;; ret (y :: ys)
  end.

Definition succeeds {A : Type} (m : result A) : Prop := exists a, m = ret a.

(** ** Python values passed as arguments: a number or [None] *)

Inductive pyarg : Type :=
| PyNone
| PyNum (q : Q).

Definition is_None (v : pyarg) : bool :=
  match v with PyNone => true | PyNum _ => false end.

(** [float(v)]: the number itself; [float(None)] is a [TypeError]. *)
Definition float (v : pyarg) : result Q :=
  match v with
  | PyNum q => ret q
  | PyNone => raise TypeError
  end.

(** ** geometry/vector.py *)

Module Vector.

Record t : Type := mk { x : Q; y : Q; z : Q }.

(** [def __init__(self, x=0, y=None, z=None, /)] *)
Definition __init__ (x y z : pyarg) : result t :=
  let '(y, z) := if is_None y then (x, x) else (y, z) in
  if is_None z then raise AssertionError
  else
    fx <- float x ;; fy <- float y ;; fz <- float z ;;
    ret (mk fx fy fz).

(** A call of the constructor: positional arguments bound left to right,
    the defaults [x=0], [y=None], [z=None] for the ones left out, a
    [TypeError] for more than three. *)
Definition call (args : list pyarg) : result t :=
  match args with
  | [] => __init__ (PyNum 0) PyNone PyNone
  | [x] => __init__ x PyNone PyNone
  | [x; y] => __init__ x y PyNone
  | [x; y; z] => __init__ x y z
  | _ => raise TypeError
  end.

(** [from_array]: the constructor called on the unpacked array of floats. *)
Definition from_array (arr : list Q) : result t :=
  call (map PyNum arr).

(** [__getitem__] *)
Definition __getitem__ (self : t) (idx : Z) : result Q :=
  if idx =? 0 then ret (x self)
  else if idx =? 1 then ret (y self)
  else if idx =? 2 then ret (z self)
  else raise (IndexError idx).

Definition to_tuple (self : t) : Q * Q * Q := (x self, y self, z self).

Definition to_array (self : t) : list Q := [x self; y self; z self].

(** The arithmetic of the class.  Each body in the source is
    [raise NotImplementedError]. *)
Definition length (self : t) : result Q := raise NotImplementedError.
Definition normalize (self : t) : result t := raise NotImplementedError.
Definition dot (self other : t) : result Q := raise NotImplementedError.
Definition cross (self other : t) : result t := raise NotImplementedError.
Definition __add__ (self other : t) : result t := raise NotImplementedError.
Definition __iadd__ (self other : t) : result t := raise NotImplementedError.
Definition __sub__ (self other : t) : result t := raise NotImplementedError.
Definition __neg__ (self : t) : result t := raise NotImplementedError.
Definition __mul__ (self : t) (other : Q) : result t := raise NotImplementedError.
Definition hadamard (self other : t) : result t := raise NotImplementedError.
Definition __truediv__ (self : t) (other : Q) : result t := raise NotImplementedError.

(** Component-wise equality up to the value of the rationals. *)
Definition equiv (u v : t) : Prop :=
  (x u == x v)%Q /\ (y u == y v)%Q /\ (z u == z v)%Q.

(** [np.allclose(a, b)] with its defaults [rtol=1e-05] and [atol=1e-08]:
    every pair of elements satisfies
    [absolute(a - b) <= atol + rtol * absolute(b)]. *)
Definition rtol : Q := 1 # 100000.
Definition atol : Q := 1 # 100000000.

Definition isclose (a b : Q) : bool :=
  Qle_bool (Qabs (a - b)) (atol + rtol * Qabs b).

Definition allclose (a b : Q * Q * Q) : bool :=
  let '(a0, a1, a2) := a in
  let '(b0, b1, b2) := b in
  isclose a0 b0 && isclose a1 b1 && isclose a2 b2.

(** [__eq__]: [np.allclose(self.to_tuple(), other.to_tuple())] *)
Definition __eq__ (self other : t) : bool :=
  allclose (to_tuple self) (to_tuple other).

End Vector.

(** Modelled from the spec: the bodies of [Vector.__iadd__] and
    [Vector.__truediv__] are absent from the sources; their docstrings say
    "Calculate sum of two vectors in-place ... :return: self" and "Calculate
    ratio of a vector and a real number ... :return: new vector", and the
    spec (4.1) that scalar operations broadcast the scalar across all three
    components.  A zero divisor is Python's [ZeroDivisionError]. *)
Module VectorDocumented.

Definition __iadd__ (self other : Vector.t) : result Vector.t :=
  ret (Vector.mk (Vector.x self + Vector.x other)
                 (Vector.y self + Vector.y other)
                 (Vector.z self + Vector.z other))%Q.

Definition __truediv__ (self : Vector.t) (other : Q) : result Vector.t :=
  if Qeq_bool other 0 then raise ZeroDivisionError
  else ret (Vector.mk (Vector.x self / other)
                      (Vector.y self / other)
                      (Vector.z self / other))%Q.

End VectorDocumented.

(** ** geometry/ray.py *)

Module Ray.

Record t : Type := mk { origin : Vector.t; direction : Vector.t }.

(** [self.direction.normalize()]: the direction is normalised in place, so
    the ray afterwards holds the vector [normalize] leaves behind. *)
Definition __attrs_post_init__ (self : t) : result t :=
  d <- Vector.normalize (direction self) ;;
  ret (mk (origin self) d).

(** The generated initialiser stores both fields and then runs
    [__attrs_post_init__]. *)
Definition __init__ (origin direction : Vector.t) : result t :=
  __attrs_post_init__ (mk origin direction).

Definition reflect (direction normal : Vector.t) : result Vector.t :=
  raise NotImplementedError.

Definition refract (direction normal : Vector.t) (eta : Q)
  : result (option Vector.t) :=
  raise NotImplementedError.

End Ray.

(** ** geometry/base.py *)

Module Base.

(** Modelled from the spec: base.py is not among the sources.  An
    intersection "carries at least the hit distance t, the hit point, and
    the local surface normal" (3).  What an object owns besides its shape
    (its material) is left as the type parameter [BaseObject] of the
    shapes below. *)
Record Intersection : Type :=
  mkIntersection { t : Q; point : Vector.t; normal : Vector.t }.

End Base.

(** ** geometry/sphere.py *)

Module Sphere.

Definition solve_quadratic (a b c : Q) : result (option (Q * Q)) :=
  raise NotImplementedError.

Section WithBase.
Context {BaseObject : Type}.

Record t : Type := mk { base : BaseObject; center : Vector.t; radius : Q }.

Definition intersect (self : t) (ray : Ray.t) : result (option Base.Intersection) :=
  raise NotImplementedError.

Definition get_normal (self : t) (point : Vector.t) : result Vector.t :=
  raise NotImplementedError.

Definition has_volume (self : t) : bool := true.

End WithBase.
Arguments t : clear implicits.

End Sphere.

(** Indexing a Python tuple with an integer: a negative index counts from
    the end, and an index outside [-len, len) is an [IndexError]. *)
Definition tuple_getitem {A : Type} (items : list A) (idx : Z) : result A :=
  let n := Z.of_nat (List.length items) in
  let i := if idx <? 0 then idx + n else idx in
  if (0 <=? i) && (i <? n) then
    match nth_error items (Z.to_nat i) with
    | Some a => ret a
    | None => raise (IndexError idx)
    end
  else raise (IndexError idx).

(** ** geometry/triangle.py *)

Module Triangle.

Definition EPS : Q := 1 # 100000000.

Definition get_triangle_area (v1 v2 v3 : Vector.t) : result Q :=
  raise NotImplementedError.

Section WithBase.
(** [BaseObject.__init__] comes from base.py; it receives the keyword
    arguments the triangle was given and may reject them. *)
Context {kwargs BaseObject : Type}.
Variable BaseObject__init__ : kwargs -> result BaseObject.

Record t : Type := mk { base : BaseObject; _vertices : list Vector.t }.

Definition __init__ (vertices : list Vector.t) (kw : kwargs) : result t :=
  if negb (Nat.eqb (List.length vertices) 3) then raise RuntimeError
  else
    b <- BaseObject__init__ kw ;;
    ret (mk b vertices).

Definition area (self : t) : result Q :=
  match _vertices self with
  | [v1; v2; v3] => get_triangle_area v1 v2 v3
  | _ => raise TypeError
  end.

Definition intersect (self : t) (ray : Ray.t) : result (option Base.Intersection) :=
  raise NotImplementedError.

Definition get_barycentric_coords (self : t) (point : Vector.t) : result Vector.t :=
  raise NotImplementedError.

Definition has_volume (self : t) : bool := false.

(** [__getitem__]: [self._vertices[idx]] *)
Definition __getitem__ (self : t) (idx : Z) : result Vector.t :=
  tuple_getitem (_vertices self) idx.

End WithBase.
Arguments t : clear implicits.

End Triangle.

(** ** render/matrix.py *)

Module Matrix.

(** numpy on the shapes the module uses: the product [@] of two
    one-dimensional arrays, of a matrix and a vector, the transpose, and
    the slices [[:3, :3]], [[3, :3]] and [[3, 3]] of a 4x4 array. *)
Fixpoint dot1 (u v : list Q) : Q :=
  match u, v with
  | a :: u', b :: v' => (a * b + dot1 u' v')%Q
  | _, _ => 0%Q
  end.

Definition matvec (m : list (list Q)) (v : list Q) : list Q :=
  map (fun row => dot1 row v) m.

Definition column (m : list (list Q)) (j : nat) : list Q :=
  map (fun row => nth j row 0%Q) m.

Definition transpose3 (m : list (list Q)) : list (list Q) :=
  map (column m) [0%nat; 1%nat; 2%nat].

Record t : Type := mk { _data : list (list Q) }.

(** [np.zeros((4, 4))], then rows 0..3 receive the four vectors in their
    first three columns and entry (3, 3) becomes 1. *)
Definition __init__ (right up forward from_ : Vector.t) : t :=
  mk [ Vector.to_array right ++ [0%Q];
       Vector.to_array up ++ [0%Q];
       Vector.to_array forward ++ [0%Q];
       Vector.to_array from_ ++ [1%Q] ].

Definition slice_33 (matrix : t) : list (list Q) :=
  map (firstn 3) (firstn 3 (_data matrix)).

Definition slice_3_3 (matrix : t) : list Q :=
  firstn 3 (nth 3 (_data matrix) []).

Definition entry_3_3 (matrix : t) : Q :=
  nth 3 (nth 3 (_data matrix) []) 0%Q.

Definition look_at (look_from look_to : Vector.t) (eps : Q) : result t :=
  raise NotImplementedError.

Definition vector_matrix_multiply (matrix : t) (vector : Vector.t) : result Vector.t :=
  Vector.from_array (matvec (transpose3 (slice_33 matrix)) (Vector.to_array vector)).

(** [depth = point.to_array() @ matrix[3, :3] + matrix[3, 3]] *)
Definition depth (matrix : t) (point : Vector.t) : Q :=
  (dot1 (Vector.to_array point) (slice_3_3 matrix) + entry_3_3 matrix)%Q.

Section Operators.
(** [result += ...] and [result / depth] dispatch to the [Vector] class. *)
Variable iadd : Vector.t -> Vector.t -> result Vector.t.
Variable truediv : Vector.t -> Q -> result Vector.t.

Definition point_matrix_multiply_with (matrix : t) (point : Vector.t) : result Vector.t :=
  result0 <- vector_matrix_multiply matrix point ;;
  translation <- Vector.from_array (slice_3_3 matrix) ;;
  result1 <- iadd result0 translation ;;
  truediv result1 (depth matrix point).

End Operators.

(** The function of the source: the operators are those of [Vector]. *)
Definition point_matrix_multiply : t -> Vector.t -> result Vector.t :=
  point_matrix_multiply_with Vector.__iadd__ Vector.__truediv__.

(** The same body over the operators as their docstrings describe them. *)
Definition point_matrix_multiply_documented : t -> Vector.t -> result Vector.t :=
  point_matrix_multiply_with VectorDocumented.__iadd__ VectorDocumented.__truediv__.

(** What the claim about affine matrices expects: the homogeneous
    coordinate read from the fourth column, and the rotated point plus the
    translation. *)
Definition homogeneous_w (matrix : t) (point : Vector.t) : Q :=
  (dot1 (Vector.to_array point) (firstn 3 (column (_data matrix) 3)) + entry_3_3 matrix)%Q.

Definition rotate_translate (matrix : t) (point : Vector.t) : list Q :=
  map (fun '(a, b) => (a + b)%Q)
      (combine (matvec (transpose3 (slice_33 matrix)) (Vector.to_array point))
               (slice_3_3 matrix)).

End Matrix.

(** ** render/scene.py *)

Module Scene.

Definition EPS : Q := 1 # 100000000.

(** [NONE_VECTOR = Vector(-3.14)] *)
Definition NONE_VECTOR : Vector.t :=
  Vector.mk (- (314 # 100)) (- (314 # 100)) (- (314 # 100)).

Definition NONE_ARRAY : list Q := Vector.to_array NONE_VECTOR.

Record PointLight : Type :=
  mkPointLight { origin : Vector.t; intensity : Vector.t }.

Record CameraOptions : Type :=
  mkCameraOptions {
    screen_width : Z;
    screen_height : Z;
    fov : Q;
    look_from : Vector.t;
    look_to : Vector.t }.

(** The pixel array of shape (height, width, 3) and the 8-bit image. *)
Definition buffer : Type := list (list (list Q)).
Definition image : Type := list (list (list Z)).

(** Python's [/] on numbers, [range(n)] and [np.empty] on a shape. *)
Definition truediv (a b : Q) : result Q :=
  if Qeq_bool b 0 then raise ZeroDivisionError else ret (a / b)%Q.

Definition range (n : Z) : list Z := map Z.of_nat (seq 0 (Z.to_nat n)).

Definition np_empty (dims : list Z) : result unit :=
  if forallb (fun d => 0 <=? d) dims then ret tt else raise ValueError.

(** [np.clip(a, a_min, a_max)] is [minimum(a_max, maximum(a, a_min))],
    element by element. *)
Definition np_clip (a a_min a_max : Q) : Q := Qmin a_max (Qmax a a_min).

(** [np.uint8] of a float: the fraction is dropped (towards zero) and the
    integer is kept modulo 256. *)
Definition truncate (q : Q) : Z :=
  if Qle_bool 0 q then Qfloor q else Qceiling q.

Definition np_uint8 (q : Q) : Z := truncate q mod 256.

(** One channel of [np.uint8(np.clip(0, 255, 256 * pixels))]: the array is
    the third argument of [np.clip]. *)
Definition channel_byte (c : Q) : Z := np_uint8 (np_clip 0 255 (256 * c)).

Definition to_image (pixels : buffer) : image :=
  map (map (map channel_byte)) pixels.

(** The contract in the words of the spec:
    [byte = clamp(0, 255, round(256 * channel))], with Python's [round]
    (halves go to the even neighbour). *)
Definition round_half_even (q : Q) : Z :=
  let f := Qfloor q in
  match Qcompare (q - inject_Z f) (1 # 2) with
  | Lt => f
  | Gt => f + 1
  | Eq => if Z.even f then f else f + 1
  end.

Definition clamp (lo hi v : Z) : Z := Z.max lo (Z.min hi v).

Definition contract_byte (c : Q) : Z := clamp 0 255 (round_half_even (256 * c)).

Definition in_unit (c : Q) : Prop := (0 <= c /\ c <= 1)%Q.

Definition channels_in_unit (pixels : buffer) : Prop :=
  Forall (Forall (Forall in_unit)) pixels.

Section WithObjects.
Context {BaseObject : Type}.

Record t : Type :=
  mk { objects : list BaseObject;
       lights : list PointLight;
       _cached_last_intersected : option BaseObject }.

Definition add_object (self : t) (obj : BaseObject) : t :=
  mk (objects self ++ [obj]) (lights self) (_cached_last_intersected self).

Definition add_light (self : t) (light : PointLight) : t :=
  mk (objects self) (lights self ++ [light]) (_cached_last_intersected self).

Definition find_closest_intersection (self : t) (ray : Ray.t)
  : result (option Base.Intersection * option BaseObject) :=
  raise NotImplementedError.

Definition is_point_illuminated (self : t) (point light_dir : Vector.t) : result bool :=
  raise NotImplementedError.

Definition get_intensity (self : t) (ray : Ray.t) (intersection : Base.Intersection)
    (obj : BaseObject) (inside : bool) (eps : Q) : result Vector.t :=
  raise NotImplementedError.

Definition trace_ray (self : t) (ray : Ray.t) (depth : Q) (inside : bool) (eps : Q)
  : result (option Vector.t) :=
  raise NotImplementedError.

(** The two passes work in place; the buffer they leave is their value. *)
Definition tone_mapping (self : t) (pixels : buffer) (background_color : Vector.t)
    (eps : Q) : result buffer :=
  raise NotImplementedError.

Definition gamma_correction (self : t) (pixels : buffer) (gamma eps : Q) : result buffer :=
  raise NotImplementedError.

Definition postprocess (self : t) (pixels : buffer) (background_color : Vector.t)
    (gamma eps : Q) : result buffer :=
  pixels1 <- tone_mapping self pixels background_color eps ;;
  gamma_correction self pixels1 gamma eps.

(** [math.tan] *)
Variable tan : Q -> Q.

(** The field [origin] of the source is [rs_origin] here, apart from the
    [origin] of [PointLight]. *)

Record RenderSettings : Type :=
  mkRenderSettings {
    cam_options : CameraOptions;
    eps : Q;
    depth : Q;
    width : Z;
    height : Z;
    aspect_ratio : Q;
    scale : Q;
    cam_to_world : Matrix.t;
    rs_origin : Vector.t }.

(** [RenderSettings(cam_options, eps, depth)], that is
    [__attrs_post_init__]. *)
Definition RenderSettings__init__ (cam : CameraOptions) (eps depth : Q)
  : result RenderSettings :=
  let width := screen_width cam in
  let height := screen_height cam in
  let scale := tan (fov cam / 2) in
  aspect_ratio <- truediv (inject_Z width) (inject_Z height) ;;
  cam_to_world <- Matrix.look_at (look_from cam) (look_to cam) eps ;;
  zero <- Vector.call [] ;;
  origin <- Matrix.point_matrix_multiply cam_to_world zero ;;
  ret (mkRenderSettings cam eps depth width height aspect_ratio scale cam_to_world origin).

(** The globals [_SCENE] and [_RENDER_SETTINGS] are passed explicitly. *)
Definition _process_pixel (_SCENE : t) (_RENDER_SETTINGS : RenderSettings) (i j : Z)
  : result (list Q) :=
  let rs := _RENDER_SETTINGS in
  qx <- truediv (2 * (inject_Z i + (1 # 2))) (inject_Z (width rs)) ;;
  let x := ((qx - 1) * aspect_ratio rs * scale rs)%Q in
  qy <- truediv (2 * (inject_Z j + (1 # 2))) (inject_Z (height rs)) ;;
  let y := ((1 - qy) * scale rs)%Q in
  v <- Vector.call [PyNum x; PyNum y; PyNum (-1)] ;;
  direction <- Matrix.vector_matrix_multiply (cam_to_world rs) v ;;
  ray <- Ray.__init__ (rs_origin rs) direction ;;
  pixel <- trace_ray _SCENE ray (depth rs) false (eps rs) ;;
  let pixel := match pixel with None => NONE_VECTOR | Some p => p end in
  ret (Vector.to_array pixel).

Definition _process_line (_SCENE : t) (_RENDER_SETTINGS : RenderSettings) (j : Z)
  : result (Z * list (list Q)) :=
  np_empty [width _RENDER_SETTINGS; 3] ;;;
  line <- mapM (fun i => _process_pixel _SCENE _RENDER_SETTINGS i j)
               (range (width _RENDER_SETTINGS)) ;;
  ret (j, line).

(** [render] with [parallel=False], its default; the worker pool of the
    other branch computes the same rows. *)
Definition render (self : t) (cam : CameraOptions) (background_color : option Vector.t)
    (depth eps : Q) : result image :=
  background_color <-
    match background_color with
    | None => Vector.call [PyNum 0; PyNum 0; PyNum 0]
    | Some b => ret b
    end ;;
  rs <- RenderSettings__init__ cam eps depth ;;
  np_empty [height rs; width rs; 3] ;;;
  pixels <- mapM (fun j => r <- _process_line self rs j ;; ret (snd r))
                 (range (height rs)) ;;
  pixels <- postprocess self pixels background_color (22 # 10) eps ;;
  ret (to_image pixels).

End WithObjects.
Arguments t : clear implicits.

End Scene.

(** * Properties *)

(** ** The error monad *)

Lemma bind_raise {A B : Type} (e : exn) (k : A -> result B) :
  bind (raise e) k = raise e.
Proof. reflexivity. Qed.

Lemma bind_ret {A B : Type} (a : A) (k : A -> result B) :
  bind (ret a) k = k a.
Proof. reflexivity. Qed.

Lemma raise_not_succeeds {A : Type} (e : exn) : ~ succeeds (@raise A e).
Proof. intros [a Ha]. discriminate Ha. Qed.

Lemma raise_ret_discr {A : Type} (e : exn) (a : A) : @raise A e <> ret a.
Proof. discriminate. Qed.

Lemma mapM_nil_or_first {A B : Type} (f : A -> result B) (e : exn) (xs : list A) :
  (forall x, f x = raise e) ->
  mapM f xs = match xs with [] => ret [] | _ :: _ => raise e end.
Proof.
  intros Hf. destruct xs as [|x xs]; [reflexivity|].
  simpl. rewrite Hf. reflexivity.
Qed.

#[local] Ltac unimplemented := intros; reflexivity.

(** ** Vector: the constructor and indexing *)

Lemma Vector_init_numbers (qx qy qz : Q) :
  Vector.__init__ (PyNum qx) (PyNum qy) (PyNum qz) = ret (Vector.mk qx qy qz).
Proof. reflexivity. Qed.

Lemma Vector_init_None_second (a z : pyarg) :
  Vector.__init__ a PyNone z = Vector.__init__ a PyNone PyNone.
Proof. reflexivity. Qed.

Lemma Vector_from_array_3 (a b c : Q) :
  Vector.from_array [a; b; c] = ret (Vector.mk a b c).
Proof. reflexivity. Qed.

Lemma float_ret_inv (a : pyarg) (q : Q) : float a = ret q -> a = PyNum q.
Proof.
  destruct a as [|q']; simpl; intros H; [discriminate H|].
  injection H as ->. reflexivity.
Qed.

Lemma NONE_VECTOR_constructed :
  Vector.call [PyNum (- (314 # 100))] = ret Scene.NONE_VECTOR.
Proof. reflexivity. Qed.

(** C9, as the claim words it, fails: a call with exactly two arguments
    whose second is [None] takes the one-argument path and returns a
    vector, so two arguments do not always fail the assertion. *)
Lemma Vector_two_arguments_counterexample :
  Vector.call [PyNum 5; PyNone] = ret (Vector.mk 5 5 5) /\
  ~ (forall a b : pyarg, Vector.call [a; b] = raise AssertionError).
Proof.
  split; [reflexivity|].
  intros H. specialize (H (PyNum 5) PyNone). discriminate H.
Qed.

(** C9 (amended): one argument [x], or [None] in second place, gives
    [(float(x), float(x), float(x))]; no argument gives the zero vector;
    three arguments that [float] accepts give
    [(float(x), float(y), float(z))]; exactly two arguments fail the
    assertion when the second one is not [None]. *)
Theorem Vector_init_arguments :
  (forall a fa, float a = ret fa ->
     Vector.call [a] = ret (Vector.mk fa fa fa) /\
     forall c, Vector.call [a; PyNone] = ret (Vector.mk fa fa fa) /\
               Vector.call [a; PyNone; c] = ret (Vector.mk fa fa fa)) /\
  Vector.call [] = ret (Vector.mk 0 0 0) /\
  (forall a b c fa fb fc,
     float a = ret fa -> float b = ret fb -> float c = ret fc ->
     Vector.call [a; b; c] = ret (Vector.mk fa fb fc)) /\
  (forall a b, b <> PyNone -> Vector.call [a; b] = raise AssertionError).
Proof.
  split; [|split; [reflexivity|split]].
  - intros a fa Ha. apply float_ret_inv in Ha. subst a.
    split; [reflexivity|]. intros c. split; reflexivity.
  - intros a b c fa fb fc Ha Hb Hc.
    apply float_ret_inv in Ha, Hb, Hc. subst. reflexivity.
  - intros a b Hb. destruct b as [|q]; [contradiction|]. reflexivity.
Qed.

Lemma Vector_init_arguments_witness :
  Vector.call [PyNum 7] = ret (Vector.mk 7 7 7) /\
  Vector.call [PyNum 1; PyNum 2; PyNum 3] = ret (Vector.mk 1 2 3) /\
  Vector.call [PyNum 1; PyNum 2] = raise AssertionError.
Proof.
  destruct Vector_init_arguments as (H1 & _ & H3 & H2).
  split; [|split].
  - apply (proj1 (H1 (PyNum 7) 7%Q eq_refl)).
  - apply (H3 (PyNum 1) (PyNum 2) (PyNum 3) 1%Q 2%Q 3%Q); reflexivity.
  - apply (H2 (PyNum 1) (PyNum 2)). discriminate.
Defined.

(** C10: [v[0]], [v[1]], [v[2]] are [v.x], [v.y], [v.z]; every other
    integer index, the negative ones included, raises [IndexError]. *)
Theorem Vector_getitem_index (v : Vector.t) :
  Vector.__getitem__ v 0 = ret (Vector.x v) /\
  Vector.__getitem__ v 1 = ret (Vector.y v) /\
  Vector.__getitem__ v 2 = ret (Vector.z v) /\
  forall i : Z, i <> 0 -> i <> 1 -> i <> 2 ->
    Vector.__getitem__ v i = raise (IndexError i).
Proof.
  repeat split.
  intros i H0 H1 H2. unfold Vector.__getitem__.
  destruct (Z.eqb_spec i 0) as [E|_]; [contradiction|].
  destruct (Z.eqb_spec i 1) as [E|_]; [contradiction|].
  destruct (Z.eqb_spec i 2) as [E|_]; [contradiction|].
  reflexivity.
Qed.

Lemma Vector_getitem_index_witness :
  Vector.__getitem__ (Vector.mk 1 2 3) (-1) = raise (IndexError (-1)).
Proof.
  apply (proj2 (proj2 (proj2 (Vector_getitem_index (Vector.mk 1 2 3))))); discriminate.
Defined.

(** ** Triangle: the vertex count *)

(** C7: with exactly three vertices (and keyword arguments the base class
    accepts) the constructor returns the triangle holding them; with any
    other number of vertices it raises [RuntimeError] before the base class
    is initialised, whatever the keyword arguments, and returns nothing. *)
Theorem Triangle_init_vertex_count
    {kwargs BaseObject : Type} (base_init : kwargs -> result BaseObject)
    (vertices : list Vector.t) (kw : kwargs) :
  (List.length vertices = 3%nat ->
     forall b, base_init kw = ret b ->
       Triangle.__init__ base_init vertices kw = ret (Triangle.mk b vertices)) /\
  (List.length vertices <> 3%nat ->
     Triangle.__init__ base_init vertices kw = raise RuntimeError /\
     ~ succeeds (Triangle.__init__ base_init vertices kw)).
Proof.
  unfold Triangle.__init__. split.
  - intros Hlen b Hb. rewrite Hlen. simpl. rewrite Hb. reflexivity.
  - intros Hlen.
    destruct (Nat.eqb_spec (List.length vertices) 3) as [E|_]; [contradiction|].
    simpl. split; [reflexivity|apply raise_not_succeeds].
Qed.

Lemma Triangle_init_vertex_count_witness :
  let v0 := Vector.mk 0 0 0 in
  let v1 := Vector.mk 1 0 0 in
  let v2 := Vector.mk 0 1 0 in
  let base_init := fun _ : unit => @ret unit tt in
  Triangle.__init__ base_init [v0; v1; v2] tt = ret (Triangle.mk tt [v0; v1; v2]) /\
  Triangle.__init__ base_init [v0; v1] tt = raise RuntimeError /\
  Triangle.__init__ base_init [v0; v1; v2; v0] tt = raise RuntimeError.
Proof.
  intros v0 v1 v2 base_init. split; [|split].
  - apply (proj1 (Triangle_init_vertex_count base_init [v0; v1; v2] tt) eq_refl tt eq_refl).
  - apply (proj2 (Triangle_init_vertex_count base_init [v0; v1] tt)). discriminate.
  - apply (proj2 (Triangle_init_vertex_count base_init [v0; v1; v2; v0] tt)). discriminate.
Defined.

(** ** The functions whose body is [raise NotImplementedError] *)

(** C2: [solve_quadratic] raises on every triple of coefficients, not only
    on [a = b = c = 0]; at [(1, 0, -4)], where the roots are [-2] and [2],
    it returns no pair. *)
Theorem solve_quadratic_unimplemented :
  (forall a b c : Q, Sphere.solve_quadratic a b c = raise NotImplementedError) /\
  Sphere.solve_quadratic 1 0 (-4) <> ret (Some ((-2)%Q, 2%Q)) /\
  ~ succeeds (Sphere.solve_quadratic 1 0 (-4)).
Proof.
  split; [unimplemented|]. split; [discriminate|apply raise_not_succeeds].
Qed.

(** C1: [Sphere.intersect] raises for every sphere and every ray; for the
    unit sphere at the origin and the ray from [(0, 0, 5)] towards
    [(0, 0, -1)] it reports no intersection at [t = 4]. *)
Theorem Sphere_intersect_unimplemented :
  (forall (BaseObject : Type) (s : Sphere.t BaseObject) (r : Ray.t),
     Sphere.intersect s r = raise NotImplementedError) /\
  (let s := Sphere.mk tt (Vector.mk 0 0 0) 1 in
   let r := Ray.mk (Vector.mk 0 0 5) (Vector.mk 0 0 (-1)) in
   ~ succeeds (Sphere.intersect s r)).
Proof.
  split; [unimplemented|]. apply raise_not_succeeds.
Qed.

(** C3: [refract] raises for every direction, normal and index ratio; with
    [eta = 1] and a ray straight into the surface it does not return the
    direction unchanged. *)
Theorem refract_unimplemented :
  (forall (d n : Vector.t) (eta : Q), Ray.refract d n eta = raise NotImplementedError) /\
  Ray.refract (Vector.mk 0 0 (-1)) (Vector.mk 0 0 1) 1
    <> ret (Some (Vector.mk 0 0 (-1))).
Proof.
  split; [unimplemented|discriminate].
Qed.

(** C4: constructing a [Ray] raises for every origin and direction, because
    [Vector.normalize] does; no ray with a unit direction comes out of the
    constructor, also for the non-zero direction [(0, 0, 2)]. *)
Theorem Ray_init_unimplemented :
  (forall o d : Vector.t, Ray.__init__ o d = raise NotImplementedError) /\
  ~ succeeds (Ray.__init__ (Vector.mk 0 0 0) (Vector.mk 0 0 2)).
Proof.
  split; [unimplemented|apply raise_not_succeeds].
Qed.

(** C8: [postprocess] raises on every buffer, at its first pass; the
    one-pixel black buffer with a black background is not returned
    unchanged. *)
Theorem postprocess_unimplemented :
  (forall (BaseObject : Type) (self : Scene.t BaseObject) (pixels : Scene.buffer)
          (background_color : Vector.t) (gamma eps : Q),
     Scene.postprocess self pixels background_color gamma eps
     = raise NotImplementedError) /\
  (let self := Scene.mk (@nil unit) [] None in
   let pixels := [[[0%Q; 0%Q; 0%Q]]] in
   Scene.postprocess self pixels (Vector.mk 0 0 0) (22 # 10) Scene.EPS <> ret pixels).
Proof.
  split; [unimplemented|discriminate].
Qed.

(** ** The camera matrix and [point_matrix_multiply] *)

Lemma Matrix_init_slices (r u f t : Vector.t) :
  Matrix.slice_3_3 (Matrix.__init__ r u f t) = Vector.to_array t /\
  Matrix.entry_3_3 (Matrix.__init__ r u f t) = 1%Q /\
  Matrix.column (Matrix._data (Matrix.__init__ r u f t)) 3 = [0%Q; 0%Q; 0%Q; 1%Q].
Proof. repeat split. Qed.

(** The fourth column of a constructed matrix is (0, 0, 0, 1): the
    homogeneous coordinate of every transformed point is 1. *)
Lemma Matrix_init_homogeneous_w (r u f t p : Vector.t) :
  (Matrix.homogeneous_w (Matrix.__init__ r u f t) p == 1)%Q.
Proof.
  unfold Matrix.homogeneous_w.
  destruct (Matrix_init_slices r u f t) as (_ & -> & ->).
  destruct p as [px py pz]. simpl. ring.
Qed.


Lemma vector_matrix_multiply_init (r u f t p : Vector.t) :
  succeeds (Matrix.vector_matrix_multiply (Matrix.__init__ r u f t) p).
Proof. eexists. reflexivity. Qed.

Lemma point_matrix_multiply_with_stub_iadd
    (truediv : Vector.t -> Q -> result Vector.t) (r u f t p : Vector.t) :
  Matrix.point_matrix_multiply_with Vector.__iadd__ truediv (Matrix.__init__ r u f t) p
  = raise NotImplementedError.
Proof. reflexivity. Qed.

(** C5: on the camera at [(1, 0, 0)] with the standard basis and the point
    [(1, 0, 0)], the rotated point plus the translation is [(2, 0, 0)] and
    the homogeneous coordinate is 1.  The function raises
    [NotImplementedError] at [result += ...], as it does on every constructed
    matrix; and its divisor is [dot(point, from_) + 1 = 2], so that over
    vector operators that do what their docstrings say it returns
    [(1, 0, 0)]. *)
Theorem point_matrix_multiply_affine_divisor :
  let M := Matrix.__init__ (Vector.mk 1 0 0) (Vector.mk 0 1 0) (Vector.mk 0 0 1)
                           (Vector.mk 1 0 0) in
  let p := Vector.mk 1 0 0 in
  (forall r u f t q,
     Matrix.point_matrix_multiply (Matrix.__init__ r u f t) q = raise NotImplementedError) /\
  (Matrix.homogeneous_w M p == 1)%Q /\
  (Matrix.depth M p == 2)%Q /\
  Forall2 Qeq (Matrix.rotate_translate M p) [2%Q; 0%Q; 0%Q] /\
  (exists v, Matrix.point_matrix_multiply_documented M p = ret v /\
             Vector.equiv v (Vector.mk 1 0 0) /\
             ~ Vector.equiv v (Vector.mk 2 0 0)).
Proof.
  intros M p. split; [|split; [|split; [|split]]].
  - intros r u f t q. apply point_matrix_multiply_with_stub_iadd.
  - apply Matrix_init_homogeneous_w.
  - reflexivity.
  - repeat constructor; reflexivity.
  - eexists. split; [reflexivity|]. split.
    + repeat split; reflexivity.
    + intros (Hx & _). vm_compute in Hx. discriminate Hx.
Qed.

(** Over the documented operators the function returns the rotated point
    plus the translation divided by [depth]. *)
Lemma point_matrix_multiply_documented_value (r u f t p : Vector.t) :
  let M := Matrix.__init__ r u f t in
  Qeq_bool (Matrix.depth M p) 0 = false ->
  exists v, Matrix.point_matrix_multiply_documented M p = ret v /\
            Forall2 Qeq (map (fun a => a * Matrix.depth M p)%Q (Vector.to_array v))
                        (Matrix.rotate_translate M p).
Proof.
  intros M Hd.
  assert (Hne : ~ (Matrix.depth M p == 0)%Q).
  { intros E. apply Qeq_bool_iff in E. rewrite E in Hd. discriminate Hd. }
  unfold Matrix.point_matrix_multiply_documented, Matrix.point_matrix_multiply_with.
  unfold VectorDocumented.__truediv__. rewrite Hd.
  eexists. split; [reflexivity|].
  set (d := Matrix.depth M p) in *.
  destruct r as [rx ry rz], u as [ux uy uz], f as [fx fy fz],
           t as [tx ty tz], p as [px py pz].
  cbn -[Qmult Qplus Qdiv d].
  repeat constructor; field; exact Hne.
Qed.

(** ** Rendering and the conversion to bytes *)

Section Render.
Context {BaseObject : Type}.
Variable tan : Q -> Q.

Lemma RenderSettings_init_raises (cam : Scene.CameraOptions) (eps depth : Q) :
  Scene.RenderSettings__init__ tan cam eps depth
  = if (Scene.screen_height cam =? 0)%Z then raise ZeroDivisionError
    else raise NotImplementedError.
Proof.
  unfold Scene.RenderSettings__init__, Scene.truediv.
  destruct (Z.eqb_spec (Scene.screen_height cam) 0) as [E|N].
  - rewrite E. reflexivity.
  - replace (Qeq_bool (inject_Z (Scene.screen_height cam)) 0) with false; [reflexivity|].
    symmetry. apply not_true_is_false. intros H. apply Qeq_bool_iff in H.
    apply N. unfold Qeq in H. simpl in H. lia.
Qed.

(** [render] stops in [RenderSettings]: no image is ever returned. *)
Lemma render_never_returns (self : Scene.t BaseObject) (cam : Scene.CameraOptions)
    (background_color : option Vector.t) (depth eps : Q) :
  ~ succeeds (Scene.render tan self cam background_color depth eps).
Proof.
  unfold Scene.render.
  assert (Hbg : exists b,
    match background_color with
    | Some b => ret b
    | None => Vector.call [PyNum 0; PyNum 0; PyNum 0]
    end = ret b).
  { destruct background_color; eexists; reflexivity. }
  destruct Hbg as [b ->]. rewrite bind_ret, RenderSettings_init_raises.
  destruct (Scene.screen_height cam =? 0)%Z; apply raise_not_succeeds.
Qed.

End Render.

Lemma np_clip_0_255 (x : Q) : Scene.np_clip 0 255 x = Qmin x 255.
Proof. reflexivity. Qed.

Lemma Qmin_le_l (x y : Q) : (x <= y)%Q -> Qmin x y = x.
Proof.
  intros H. unfold Qmin, GenericMinMax.gmin.
  apply Qle_alt in H. destruct (x ?= y)%Q eqn:E; [reflexivity|reflexivity|].
  contradiction.
Qed.

Lemma Qmin_gt_r (x y : Q) : (y < x)%Q -> Qmin x y = y.
Proof.
  intros H. unfold Qmin, GenericMinMax.gmin.
  apply Qgt_alt in H. rewrite H. reflexivity.
Qed.

Lemma truncate_nonneg (x : Q) : (0 <= x)%Q -> Scene.truncate x = Qfloor x.
Proof.
  intros H. unfold Scene.truncate.
  apply Qle_bool_iff in H. rewrite H. reflexivity.
Qed.

Lemma Qfloor_255 : Qfloor 255 = 255.
Proof. reflexivity. Qed.

(** A channel of the unit interval becomes [floor(256 c)], capped at 255. *)
Lemma channel_byte_in_unit (c : Q) :
  Scene.in_unit c ->
  Scene.channel_byte c = Z.min 255 (Qfloor (256 * c)) /\
  0 <= Scene.channel_byte c <= 255.
Proof.
  intros [H0 H1]. unfold Scene.channel_byte. rewrite np_clip_0_255.
  assert (Hx : (0 <= 256 * c)%Q) by (apply Qmult_le_0_compat; [discriminate|exact H0]).
  assert (Hf : 0 <= Qfloor (256 * c)).
  { change 0 with (Qfloor 0). apply Qfloor_resp_le, Hx. }
  destruct (Qlt_le_dec 255 (256 * c)) as [Hgt|Hle].
  - rewrite (Qmin_gt_r _ _ Hgt).
    assert (255 <= Qfloor (256 * c)).
    { rewrite <- Qfloor_255. apply Qfloor_resp_le, Qlt_le_weak, Hgt. }
    rewrite Z.min_l by lia. split; [reflexivity|]. vm_compute. split; discriminate.
  - rewrite (Qmin_le_l _ _ Hle).
    assert (Qfloor (256 * c) <= 255).
    { rewrite <- Qfloor_255. apply Qfloor_resp_le, Hle. }
    unfold Scene.np_uint8. rewrite truncate_nonneg by exact Hx.
    rewrite Z.mod_small by lia. rewrite Z.min_r by lia. lia.
Qed.

Lemma map_eq_on_Forall {A B : Type} (P : A -> Prop) (f g : A -> B) (l : list A) :
  (forall a, P a -> f a = g a) -> Forall P l -> map f l = map g l.
Proof.
  intros Hfg Hl. induction Hl as [|a l Ha _ IH]; simpl.
  - reflexivity.
  - rewrite (Hfg a Ha), IH. reflexivity.
Qed.

Lemma Forall_map_on {A B : Type} (P : A -> Prop) (R : B -> Prop) (f : A -> B) (l : list A) :
  (forall a, P a -> R (f a)) -> Forall P l -> Forall R (map f l).
Proof.
  intros Hf Hl. induction Hl as [|a l Ha _ IH]; simpl; constructor; auto.
Qed.

(** C6, as the claim words it, fails: the channel 3/1024 lies in [0, 1],
    256 times it is 0.75, which rounds to 1, and the byte the code writes
    is 0. *)
Lemma contract_byte_counterexample :
  Scene.in_unit (3 # 1024) /\
  Scene.channel_byte (3 # 1024) = 0 /\
  Scene.contract_byte (3 # 1024) = 1 /\
  Scene.channels_in_unit [[[3 # 1024; 0; 1]]]%Q /\
  Scene.to_image [[[3 # 1024; 0; 1]]]%Q
    <> map (map (map Scene.contract_byte)) [[[3 # 1024; 0; 1]]]%Q.
Proof.
  split; [split; discriminate|].
  split; [reflexivity|]. split; [reflexivity|]. split.
  - repeat constructor; discriminate.
  - vm_compute. discriminate.
Qed.

(** C6 (amended): for every pixel buffer whose channels lie in [0, 1], the
    byte written for a channel [c] is [floor(256 * c)] capped at 255 (the
    fraction is dropped, not rounded), and every byte lies in 0..255. *)
Theorem to_image_truncates (pixels : Scene.buffer) :
  Scene.channels_in_unit pixels ->
  Scene.to_image pixels
    = map (map (map (fun c => Z.min 255 (Qfloor (256 * c))))) pixels /\
  Forall (Forall (Forall (fun b => 0 <= b <= 255))) (Scene.to_image pixels).
Proof.
  intros H. unfold Scene.to_image, Scene.channels_in_unit in *. split.
  - apply map_eq_on_Forall with (P := Forall (Forall Scene.in_unit)); [|exact H].
    intros row Hrow.
    apply map_eq_on_Forall with (P := Forall Scene.in_unit); [|exact Hrow].
    intros px Hpx.
    apply map_eq_on_Forall with (P := Scene.in_unit); [|exact Hpx].
    intros c Hc. apply channel_byte_in_unit, Hc.
  - apply Forall_map_on with (P := Forall (Forall Scene.in_unit)); [|exact H].
    intros row Hrow.
    apply Forall_map_on with (P := Forall Scene.in_unit); [|exact Hrow].
    intros px Hpx.
    apply Forall_map_on with (P := Scene.in_unit); [|exact Hpx].
    intros c Hc. apply channel_byte_in_unit, Hc.
Qed.

Lemma to_image_truncates_witness :
  Scene.to_image [[[3 # 1024; 1 # 2; 1]]]%Q = [[[0; 128; 255]]].
Proof.
  refine (proj1 (to_image_truncates [[[3 # 1024; 1 # 2; 1]]]%Q _)).
  repeat constructor; discriminate.
Defined.


(** * Further properties of the implemented code *)

(** ** Vector: arrays, indexing and the constructor's outcomes *)

Lemma Vector_from_to_array (v : Vector.t) :
  Vector.from_array (Vector.to_array v) = ret v.
Proof. destruct v. reflexivity. Qed.

(** X1: [to_array] followed by [from_array] gives the vector back, and a
    three-element array read by [from_array] is what [to_array] returns. *)
Theorem Vector_from_array_to_array :
  (forall v : Vector.t, Vector.from_array (Vector.to_array v) = ret v) /\
  (forall (arr : list Q) (v : Vector.t),
     List.length arr = 3%nat ->
     Vector.from_array arr = ret v -> Vector.to_array v = arr).
Proof.
  split.
  - exact Vector_from_to_array.
  - intros arr v Hlen H.
    destruct arr as [|a [|b [|c [|d arr]]]]; try discriminate Hlen.
    rewrite Vector_from_array_3 in H. injection H as <-. reflexivity.
Qed.

Lemma Vector_from_array_to_array_witness :
  Vector.to_array (Vector.mk 1 2 3) = [1%Q; 2%Q; 3%Q].
Proof.
  apply (proj2 Vector_from_array_to_array [1%Q; 2%Q; 3%Q] (Vector.mk 1 2 3));
    reflexivity.
Defined.

(** X2: [from_array] returns a vector exactly for arrays of length 0, 1
    or 3: the empty array gives the zero vector, one element is repeated
    three times, two elements fail the assertion and four or more are a
    [TypeError]. *)
Theorem Vector_from_array_length (arr : list Q) :
  (succeeds (Vector.from_array arr) <->
     List.length arr = 0%nat \/ List.length arr = 1%nat \/ List.length arr = 3%nat) /\
  (arr = [] -> Vector.from_array arr = ret (Vector.mk 0 0 0)) /\
  (forall a, arr = [a] -> Vector.from_array arr = ret (Vector.mk a a a)) /\
  (List.length arr = 2%nat -> Vector.from_array arr = raise AssertionError) /\
  ((3 < List.length arr)%nat -> Vector.from_array arr = raise TypeError).
Proof.
  destruct arr as [|a [|b [|c [|d arr]]]];
    (split;
     [split; [intros Hs|intros Hl]
     |split; [intros E|split; [intros a' E|split; [intros E|intros E]]]]);
    try discriminate E; try reflexivity;
    try (simpl in E; lia);
    try (simpl; auto; fail);
    try (eexists; reflexivity);
    try (destruct Hs as [v Hv]; discriminate Hv);
    try (simpl in Hl; destruct Hl as [H|[H|H]]; discriminate H).
  injection E as <-. reflexivity.
Qed.

Lemma Vector_from_array_length_witness :
  Vector.from_array [1%Q; 2%Q] = raise AssertionError /\
  Vector.from_array [1%Q; 2%Q; 3%Q; 4%Q] = raise TypeError /\
  Vector.from_array [7%Q] = ret (Vector.mk 7 7 7) /\
  succeeds (Vector.from_array []).
Proof.
  split; [|split; [|split]].
  - apply (proj1 (proj2 (proj2 (proj2 (Vector_from_array_length [1%Q; 2%Q]))))).
    reflexivity.
  - apply (proj2 (proj2 (proj2 (proj2 (Vector_from_array_length [1%Q; 2%Q; 3%Q; 4%Q]))))).
    simpl. lia.
  - apply (proj1 (proj2 (proj2 (Vector_from_array_length [7%Q]))) 7%Q). reflexivity.
  - apply (proj1 (Vector_from_array_length [])). left. reflexivity.
Defined.

(** X3: the outcomes of the constructor.  It returns a vector exactly when
    [x] is a number and either [y] is [None] or [z] is a number as well; it
    fails the assertion exactly when [y] and [x] are both [None], or [y] is
    given and [z] is [None]; and [float(None)] is reached (a [TypeError])
    exactly when [x] is [None] while [y] and [z] are given. *)
Theorem Vector_init_outcomes (a b c : pyarg) :
  (succeeds (Vector.__init__ a b c) <->
     a <> PyNone /\ (b = PyNone \/ c <> PyNone)) /\
  (Vector.__init__ a b c = raise AssertionError <->
     (b = PyNone /\ a = PyNone) \/ (b <> PyNone /\ c = PyNone)) /\
  (Vector.__init__ a b c = raise TypeError <->
     a = PyNone /\ b <> PyNone /\ c <> PyNone).
Proof.
  assert (Hnn : forall q, PyNum q <> PyNone) by (intros q; discriminate).
  assert (Hn : ~ PyNone <> PyNone) by (intros H; apply H; reflexivity).
  destruct a as [|qa], b as [|qb], c as [|qc]; simpl;
    (split; [|split]); (split; [intros H|intros H]);
    try reflexivity;
    try discriminate H;
    try match goal with
        | Hs : succeeds _ |- _ => destruct Hs as [v Hv]; discriminate Hv
        end;
    try (eexists; reflexivity);
    try tauto;
    try (exfalso; intuition congruence);
    try (intuition congruence).
Qed.

Lemma Vector_init_outcomes_witness :
  succeeds (Vector.__init__ (PyNum 1) PyNone (PyNum 3)) /\
  Vector.__init__ PyNone PyNone PyNone = raise AssertionError /\
  Vector.__init__ PyNone (PyNum 2) (PyNum 3) = raise TypeError.
Proof.
  split; [|split].
  - apply (proj1 (Vector_init_outcomes (PyNum 1) PyNone (PyNum 3))).
    split; [discriminate|left; reflexivity].
  - apply (proj1 (proj2 (Vector_init_outcomes PyNone PyNone PyNone))).
    left. split; reflexivity.
  - apply (proj2 (proj2 (Vector_init_outcomes PyNone (PyNum 2) (PyNum 3)))).
    split; [reflexivity|split; discriminate].
Defined.

(** X4: indexing agrees with [to_array]: [v[i]] returns [q] exactly when
    [i] is not negative and [q] is the element of [v.to_array()] at
    position [i]. *)
Theorem Vector_getitem_to_array (v : Vector.t) (i : Z) (q : Q) :
  Vector.__getitem__ v i = ret q <->
  0 <= i /\ nth_error (Vector.to_array v) (Z.to_nat i) = Some q.
Proof.
  unfold Vector.__getitem__, Vector.to_array.
  destruct (Z.eqb_spec i 0) as [->|N0].
  { simpl. split; [intros H; injection H as ->; split; [lia|reflexivity]|].
    intros [_ H]. injection H as ->. reflexivity. }
  destruct (Z.eqb_spec i 1) as [->|N1].
  { simpl. split; [intros H; injection H as ->; split; [lia|reflexivity]|].
    intros [_ H]. injection H as ->. reflexivity. }
  destruct (Z.eqb_spec i 2) as [->|N2].
  { simpl. split; [intros H; injection H as ->; split; [lia|reflexivity]|].
    intros [_ H]. injection H as ->. reflexivity. }
  split; [intros H; discriminate H|].
  intros [Hi H]. exfalso.
  assert (E : exists k, Z.to_nat i = S (S (S k))).
  { exists (Z.to_nat (i - 3)). lia. }
  destruct E as [k E]. rewrite E in H. simpl in H. destruct k; discriminate H.
Qed.

Lemma Vector_getitem_to_array_witness :
  Vector.__getitem__ (Vector.mk 4 5 6) 2 = ret 6%Q.
Proof.
  apply (proj2 (Vector_getitem_to_array (Vector.mk 4 5 6) 2 6%Q)).
  split; [discriminate|reflexivity].
Defined.

(** ** The camera matrix *)


#[local] Ltac vector_equiv :=
  unfold Vector.equiv; cbn -[Qmult Qplus Qdiv]; repeat split; ring.

Lemma vector_matrix_multiply_components (r u f t p : Vector.t) :
  exists v,
    Matrix.vector_matrix_multiply (Matrix.__init__ r u f t) p = ret v /\
    (Vector.x v == Vector.x p * Vector.x r + Vector.y p * Vector.x u
                   + Vector.z p * Vector.x f)%Q /\
    (Vector.y v == Vector.x p * Vector.y r + Vector.y p * Vector.y u
                   + Vector.z p * Vector.y f)%Q /\
    (Vector.z v == Vector.x p * Vector.z r + Vector.y p * Vector.z u
                   + Vector.z p * Vector.z f)%Q.
Proof.
  destruct r as [rx ry rz], u as [ux uy uz], f as [fx fy fz],
           t as [tx ty tz], p as [px py pz].
  eexists. split; [reflexivity|].
  cbn -[Qmult Qplus]. repeat split; ring.
Qed.

(** X6: on a constructed matrix [vector_matrix_multiply] always returns,
    and the result is the combination [x * right + y * up + z * forward] of
    the three basis rows with the components of the vector; the translation
    row plays no part, so matrices that differ only in [from_] transform
    every vector alike. *)
Theorem vector_matrix_multiply_combination (r u f t p : Vector.t) :
  exists v,
    Matrix.vector_matrix_multiply (Matrix.__init__ r u f t) p = ret v /\
    (forall t', Matrix.vector_matrix_multiply (Matrix.__init__ r u f t') p = ret v) /\
    (Vector.x v == Vector.x p * Vector.x r + Vector.y p * Vector.x u
                   + Vector.z p * Vector.x f)%Q /\
    (Vector.y v == Vector.x p * Vector.y r + Vector.y p * Vector.y u
                   + Vector.z p * Vector.y f)%Q /\
    (Vector.z v == Vector.x p * Vector.z r + Vector.y p * Vector.z u
                   + Vector.z p * Vector.z f)%Q.
Proof.
  destruct (vector_matrix_multiply_components r u f t p) as (v & Hv & Hxyz).
  exists v. split; [exact Hv|]. split; [|exact Hxyz].
  intros t'. rewrite <- Hv. reflexivity.
Qed.


(** X8: the three axes are sent to the rows of the matrix: (1, 0, 0) to
    [right], (0, 1, 0) to [up] and (0, 0, 1) to [forward]. *)
Theorem vector_matrix_multiply_axes (r u f t : Vector.t) :
  let M := Matrix.__init__ r u f t in
  exists vr vu vf,
    Matrix.vector_matrix_multiply M (Vector.mk 1 0 0) = ret vr /\ Vector.equiv vr r /\
    Matrix.vector_matrix_multiply M (Vector.mk 0 1 0) = ret vu /\ Vector.equiv vu u /\
    Matrix.vector_matrix_multiply M (Vector.mk 0 0 1) = ret vf /\ Vector.equiv vf f.
Proof.
  destruct r as [rx ry rz], u as [ux uy uz], f as [fx fy fz], t as [tx ty tz].
  do 3 eexists.
  split; [reflexivity|]. split; [vector_equiv|].
  split; [reflexivity|]. split; [vector_equiv|].
  split; [reflexivity|vector_equiv].
Qed.



(** ** [point_matrix_multiply] over working vector operators *)

Section PointTransform.
(** The operators [+=] and [/] of [Vector], taken as any functions that add
    component by component and that divide by a non-zero number. *)
Variable iadd : Vector.t -> Vector.t -> result Vector.t.
Variable truediv : Vector.t -> Q -> result Vector.t.

Hypothesis iadd_sum : forall a b, exists c,
  iadd a b = ret c /\
  Vector.equiv c (Vector.mk (Vector.x a + Vector.x b) (Vector.y a + Vector.y b)
                            (Vector.z a + Vector.z b)).

Hypothesis truediv_quotient : forall a d, ~ (d == 0)%Q -> exists c,
  truediv a d = ret c /\
  Vector.equiv (Vector.mk (Vector.x c * d) (Vector.y c * d) (Vector.z c * d)) a.




End PointTransform.





(** ** Scene: adding objects and lights *)

Section SceneLists.
Context {BaseObject : Type}.

(** X12: objects are appended in the order they are added, and adding
    objects leaves the lights and the cached object alone. *)
Theorem Scene_add_object_appends (s : Scene.t BaseObject) (objs : list BaseObject) :
  let s' := fold_left Scene.add_object objs s in
  Scene.objects s' = Scene.objects s ++ objs /\
  Scene.lights s' = Scene.lights s /\
  Scene._cached_last_intersected s' = Scene._cached_last_intersected s.
Proof.
  revert s. induction objs as [|o objs IH]; intros s; simpl.
  - rewrite app_nil_r. repeat split.
  - destruct (IH (Scene.add_object s o)) as (Ho & Hl & Hc).
    rewrite Ho, Hl, Hc. simpl. rewrite <- app_assoc. repeat split.
Qed.

(** X13: lights are appended in the order they are added, adding lights
    leaves the objects and the cached object alone, and an object and a
    light can be added in either order. *)
Theorem Scene_add_light_appends (s : Scene.t BaseObject) (ls : list Scene.PointLight) :
  let s' := fold_left Scene.add_light ls s in
  (Scene.lights s' = Scene.lights s ++ ls /\
   Scene.objects s' = Scene.objects s /\
   Scene._cached_last_intersected s' = Scene._cached_last_intersected s) /\
  (forall o l, Scene.add_object (Scene.add_light s l) o
               = Scene.add_light (Scene.add_object s o) l).
Proof.
  split; [|reflexivity].
  revert s. induction ls as [|l ls IH]; intros s; simpl.
  - rewrite app_nil_r. repeat split.
  - destruct (IH (Scene.add_light s l)) as (Hl & Ho & Hc).
    rewrite Ho, Hl, Hc. simpl. rewrite <- app_assoc. repeat split.
Qed.

(** ** Rendering *)

Variable tan : Q -> Q.

(** X14: [render] never returns an image: it raises [ZeroDivisionError]
    when the screen height is 0 (the aspect ratio is computed first) and
    [NotImplementedError] (from [look_at]) for every other camera, whatever
    the scene, the background, the depth and the tolerance. *)
Theorem render_raises (self : Scene.t BaseObject) (cam : Scene.CameraOptions)
    (background_color : option Vector.t) (depth eps : Q) :
  Scene.render tan self cam background_color depth eps
  = if Scene.screen_height cam =? 0 then raise ZeroDivisionError
    else raise NotImplementedError.
Proof.
  unfold Scene.render.
  destruct background_color as [b|]; simpl bind;
    rewrite RenderSettings_init_raises;
    destruct (Scene.screen_height cam =? 0); reflexivity.
Qed.

End SceneLists.

Section PixelLines.
Context {BaseObject : Type}.

Lemma inject_Z_eq_bool_0 (n : Z) : Qeq_bool (inject_Z n) 0 = (n =? 0).
Proof.
  destruct (Z.eqb_spec n 0) as [->|N]; [reflexivity|].
  apply not_true_is_false. intros H. apply Qeq_bool_iff in H.
  apply N. unfold Qeq in H. simpl in H. lia.
Qed.

Lemma process_pixel_raises (scene : Scene.t BaseObject)
    (rs : Scene.RenderSettings) (r u f t : Vector.t) (i j : Z) :
  Scene.cam_to_world rs = Matrix.__init__ r u f t ->
  Scene._process_pixel scene rs i j
  = if (Scene.width rs =? 0) || (Scene.height rs =? 0) then raise ZeroDivisionError
    else raise NotImplementedError.
Proof.
  intros HM. unfold Scene._process_pixel, Scene.truediv.
  rewrite !inject_Z_eq_bool_0, HM.
  destruct (Scene.width rs =? 0); [reflexivity|].
  destruct (Scene.height rs =? 0); reflexivity.
Qed.

(** X15: a row of pixels is never computed.  For a negative width
    [_process_line] raises [ValueError] (the array cannot be allocated), for
    width 0 it returns the empty row, and for a positive width it stops at
    the first pixel: with [ZeroDivisionError] when the height is 0, and
    otherwise with [NotImplementedError] when the ray is constructed. *)
Theorem process_line_outcome (scene : Scene.t BaseObject)
    (rs : Scene.RenderSettings) (r u f t : Vector.t) (j : Z) :
  Scene.cam_to_world rs = Matrix.__init__ r u f t ->
  Scene._process_line scene rs j
  = if Scene.width rs <? 0 then raise ValueError
    else if Scene.width rs =? 0 then ret (j, [])
    else if Scene.height rs =? 0 then raise ZeroDivisionError
    else raise NotImplementedError.
Proof.
  intros HM. unfold Scene._process_line, Scene.np_empty. simpl forallb.
  destruct (Z.ltb_spec (Scene.width rs) 0) as [Hneg|Hnn].
  - replace (0 <=? Scene.width rs) with false by (symmetry; apply Z.leb_gt, Hneg).
    reflexivity.
  - replace (0 <=? Scene.width rs) with true by (symmetry; apply Z.leb_le, Hnn).
    simpl. destruct (Z.eqb_spec (Scene.width rs) 0) as [E|N].
    + rewrite E. reflexivity.
    + unfold Scene.range.
      destruct (Z.to_nat (Scene.width rs)) as [|n] eqn:En; [lia|].
      simpl. rewrite (process_pixel_raises scene rs r u f t 0 j HM).
      replace (Scene.width rs =? 0) with false by (symmetry; apply Z.eqb_neq, N).
      simpl. destruct (Scene.height rs =? 0); reflexivity.
Qed.

End PixelLines.

Lemma process_line_outcome_witness :
  let M := Matrix.__init__ (Vector.mk 1 0 0) (Vector.mk 0 1 0) (Vector.mk 0 0 1)
                           (Vector.mk 0 0 5) in
  let cam := Scene.mkCameraOptions 2 2 1 (Vector.mk 0 0 5) (Vector.mk 0 0 0) in
  let rs := Scene.mkRenderSettings cam Scene.EPS 3 2 2 1 1 M (Vector.mk 0 0 5) in
  Scene._process_line (Scene.mk (@nil unit) [] None) rs 0 = raise NotImplementedError.
Proof.
  intros M cam rs.
  apply (process_line_outcome (Scene.mk (@nil unit) [] None) rs
           (Vector.mk 1 0 0) (Vector.mk 0 1 0) (Vector.mk 0 0 1) (Vector.mk 0 0 5) 0).
  reflexivity.
Defined.

(** ** Bytes of the image *)

Lemma channel_byte_floor (c : Q) :
  (0 <= c)%Q -> Scene.channel_byte c = Z.min 255 (Qfloor (256 * c)).
Proof.
  intros H0. unfold Scene.channel_byte. rewrite np_clip_0_255.
  assert (Hx : (0 <= 256 * c)%Q) by (apply Qmult_le_0_compat; [discriminate|exact H0]).
  assert (Hf : 0 <= Qfloor (256 * c)).
  { change 0 with (Qfloor 0). apply Qfloor_resp_le, Hx. }
  destruct (Qlt_le_dec 255 (256 * c)) as [Hgt|Hle].
  - rewrite (Qmin_gt_r _ _ Hgt).
    assert (255 <= Qfloor (256 * c)).
    { rewrite <- Qfloor_255. apply Qfloor_resp_le, Qlt_le_weak, Hgt. }
    rewrite Z.min_l by lia. reflexivity.
  - rewrite (Qmin_le_l _ _ Hle).
    assert (Qfloor (256 * c) <= 255).
    { rewrite <- Qfloor_255. apply Qfloor_resp_le, Hle. }
    unfold Scene.np_uint8. rewrite truncate_nonneg by exact Hx.
    rewrite Z.mod_small by lia. rewrite Z.min_r by lia. reflexivity.
Qed.

Lemma Qfloor_256_le (c : Q) (k : Z) :
  (k <= Qfloor (256 * c)) <-> (inject_Z k / 256 <= c)%Q.
Proof.
  split; intros H.
  - apply Qle_shift_div_r; [reflexivity|].
    apply Qle_trans with (inject_Z (Qfloor (256 * c))).
    + rewrite <- Zle_Qle. exact H.
    + rewrite Qmult_comm. apply Qfloor_le.
  - assert (Hk : (inject_Z k <= 256 * c)%Q).
    { rewrite Qmult_comm. apply Qle_shift_div_l in H; [exact H|reflexivity]. }
    apply Qfloor_resp_le in Hk. rewrite Qfloor_Z in Hk. exact Hk.
Qed.

(** X16: a channel that is not negative is written as the byte
    [min(255, floor(256 * c))], whatever its size: channels above 1 are
    written as 255, and the byte never decreases when the channel grows. *)
Theorem channel_byte_saturates_monotone :
  (forall c, (0 <= c)%Q -> Scene.channel_byte c = Z.min 255 (Qfloor (256 * c))) /\
  (forall c, (1 <= c)%Q -> Scene.channel_byte c = 255) /\
  (forall c c', (0 <= c)%Q -> (c <= c')%Q ->
     Scene.channel_byte c <= Scene.channel_byte c').
Proof.
  split; [exact channel_byte_floor|]. split.
  - intros c Hc. rewrite channel_byte_floor by (apply Qle_trans with 1%Q; [discriminate|exact Hc]).
    apply Z.min_l. apply Qfloor_256_le.
    apply Qle_trans with 1%Q; [discriminate|exact Hc].
  - intros c c' H0 Hcc'.
    rewrite (channel_byte_floor c H0).
    rewrite (channel_byte_floor c' (Qle_trans _ _ _ H0 Hcc')).
    apply Z.min_le_compat_l, Qfloor_resp_le.
    apply Qmult_le_l; [reflexivity|exact Hcc'].
Qed.

Lemma channel_byte_saturates_monotone_witness :
  Scene.channel_byte (3 # 2) = 255 /\
  Scene.channel_byte (1 # 4) <= Scene.channel_byte (1 # 2).
Proof.
  destruct channel_byte_saturates_monotone as (_ & Hsat & Hmono).
  split.
  - apply (Hsat (3 # 2)%Q). discriminate.
  - apply (Hmono (1 # 4)%Q (1 # 2)%Q); discriminate.
Defined.

(** X17: which channels give which byte: for a channel that is not
    negative the byte is at least [k] (for [k] up to 255) exactly when the
    channel is at least [k / 256].  So the byte is 0 exactly below 1/256 and
    255 exactly from 255/256 on. *)
Theorem channel_byte_threshold (c : Q) (k : Z) :
  (0 <= c)%Q -> 0 <= k <= 255 ->
  (k <= Scene.channel_byte c <-> (inject_Z k / 256 <= c)%Q).
Proof.
  intros H0 Hk. rewrite channel_byte_floor by exact H0.
  rewrite <- Qfloor_256_le. lia.
Qed.

Lemma channel_byte_threshold_witness :
  255 <= Scene.channel_byte (255 # 256).
Proof.
  apply (proj2 (channel_byte_threshold (255 # 256) 255 ltac:(discriminate) ltac:(lia))).
  discriminate.
Defined.

(** X18: the call [np.clip(0, 255, x)] caps at 255 and has no lower bound:
    a value up to 255, a negative one included, is returned as it is. *)
Theorem np_clip_no_lower_bound (x : Q) :
  ((x <= 255)%Q -> Scene.np_clip 0 255 x = x) /\
  ((255 < x)%Q -> Scene.np_clip 0 255 x = 255%Q).
Proof.
  rewrite np_clip_0_255. split; intros H.
  - apply Qmin_le_l, H.
  - apply Qmin_gt_r, H.
Qed.

Lemma np_clip_no_lower_bound_witness :
  Scene.np_clip 0 255 (-64) = (-64)%Q /\ Scene.np_clip 0 255 300 = 255%Q.
Proof.
  split.
  - apply (proj1 (np_clip_no_lower_bound (-64))). discriminate.
  - apply (proj2 (np_clip_no_lower_bound 300)). reflexivity.
Defined.

(** ** Equality of vectors *)

Lemma isclose_within_atol (a b : Q) :
  (Qabs (a - b) <= Vector.atol)%Q -> Vector.isclose a b = true.
Proof.
  intros H. unfold Vector.isclose. apply Qle_bool_iff.
  apply Qle_trans with Vector.atol; [exact H|].
  rewrite <- (Qplus_0_r Vector.atol) at 1.
  apply Qplus_le_r. apply Qmult_le_0_compat; [discriminate|apply Qabs_nonneg].
Qed.

Lemma Qabs_diff_self (a : Q) : (Qabs (a - a) <= Vector.atol)%Q.
Proof.
  assert (E : (a - a == 0)%Q) by ring.
  rewrite E. discriminate.
Qed.

(** X19: [==] on vectors holds whenever every pair of components differs
    by at most 1e-8; in particular every vector equals itself, and vectors
    with equal components are equal. *)
Theorem Vector_eq_within_atol :
  (forall u v : Vector.t,
     (Qabs (Vector.x u - Vector.x v) <= 1 # 100000000)%Q ->
     (Qabs (Vector.y u - Vector.y v) <= 1 # 100000000)%Q ->
     (Qabs (Vector.z u - Vector.z v) <= 1 # 100000000)%Q ->
     Vector.__eq__ u v = true) /\
  (forall v : Vector.t, Vector.__eq__ v v = true) /\
  (forall u v : Vector.t, Vector.equiv u v -> Vector.__eq__ u v = true).
Proof.
  assert (H1 : forall u v : Vector.t,
     (Qabs (Vector.x u - Vector.x v) <= 1 # 100000000)%Q ->
     (Qabs (Vector.y u - Vector.y v) <= 1 # 100000000)%Q ->
     (Qabs (Vector.z u - Vector.z v) <= 1 # 100000000)%Q ->
     Vector.__eq__ u v = true).
  { intros [ux uy uz] [vx vy vz] Hx Hy Hz. simpl in *.
    unfold Vector.__eq__, Vector.allclose. simpl.
    rewrite !isclose_within_atol by assumption. reflexivity. }
  split; [exact H1|]. split.
  - intros v. apply H1; apply Qabs_diff_self.
  - intros u v (Hx & Hy & Hz). apply H1.
    + rewrite Hx. apply Qabs_diff_self.
    + rewrite Hy. apply Qabs_diff_self.
    + rewrite Hz. apply Qabs_diff_self.
Qed.

Lemma Vector_eq_within_atol_witness :
  Vector.__eq__ (Vector.mk 1 2 3) (Vector.mk (1 + (1 # 1000000000)) 2 3) = true.
Proof.
  apply (proj1 Vector_eq_within_atol (Vector.mk 1 2 3)
               (Vector.mk (1 + (1 # 1000000000)) 2 3)); discriminate.
Defined.

(** X20: [==] on vectors is neither symmetric nor transitive.  The
    tolerance is relative to the right operand, so
    [Vector(1000000) == Vector(1000010.00005)] holds and the converse does
    not; and 0, 1e-8, 2e-8 are equal step by step but not end to end. *)
Theorem Vector_eq_not_symmetric_not_transitive :
  ~ (forall u v : Vector.t, Vector.__eq__ u v = true -> Vector.__eq__ v u = true) /\
  ~ (forall u v w : Vector.t,
       Vector.__eq__ u v = true -> Vector.__eq__ v w = true ->
       Vector.__eq__ u w = true).
Proof.
  split.
  - intros H.
    set (a := 1000000%Q). set (b := (1000010 + (1 # 20000))%Q).
    specialize (H (Vector.mk a a a) (Vector.mk b b b)).
    assert (E : Vector.__eq__ (Vector.mk a a a) (Vector.mk b b b) = true)
      by (vm_compute; reflexivity).
    apply H in E. vm_compute in E. discriminate E.
  - intros H.
    set (b := (1 # 100000000)%Q). set (c := (2 # 100000000)%Q).
    specialize (H (Vector.mk 0 0 0) (Vector.mk b b b) (Vector.mk c c c)).
    assert (E : Vector.__eq__ (Vector.mk 0 0 0) (Vector.mk c c c) = true).
    { apply H; vm_compute; reflexivity. }
    vm_compute in E. discriminate E.
Qed.

(** ** Triangle: indexing *)

(** X21: a constructed triangle is indexed like the tuple of its three
    vertices: [t[i]] returns exactly for [-3 <= i < 3], the indices 0, 1, 2
    give the vertices in the order they were passed, [i - 3] gives the same
    vertex as [i], and every other index raises [IndexError]. *)
Theorem Triangle_getitem_constructed
    {kwargs BaseObject : Type} (base_init : kwargs -> result BaseObject)
    (vertices : list Vector.t) (kw : kwargs) (tri : Triangle.t BaseObject) (i : Z) :
  Triangle.__init__ base_init vertices kw = ret tri ->
  (succeeds (Triangle.__getitem__ tri i) <-> -3 <= i < 3) /\
  (forall v, 0 <= i < 3 -> nth_error vertices (Z.to_nat i) = Some v ->
     Triangle.__getitem__ tri i = ret v /\
     Triangle.__getitem__ tri (i - 3) = ret v) /\
  (~ (-3 <= i < 3) -> Triangle.__getitem__ tri i = raise (IndexError i)).
Proof.
  unfold Triangle.__init__. intros Hinit.
  destruct (Nat.eqb_spec (List.length vertices) 3) as [Hlen|Hlen];
    [|discriminate Hinit].
  simpl in Hinit. destruct (base_init kw) as [e|b]; [discriminate Hinit|].
  simpl in Hinit. injection Hinit as <-.
  destruct vertices as [|v0 [|v1 [|v2 [|v3 vs]]]]; try discriminate Hlen.
  unfold Triangle.__getitem__. simpl Triangle._vertices.
  assert (Hcases : i = -3 \/ i = -2 \/ i = -1 \/ i = 0 \/ i = 1 \/ i = 2
                   \/ ~ (-3 <= i < 3)) by lia.
  assert (Hout : ~ (-3 <= i < 3) ->
                 tuple_getitem [v0; v1; v2] i = raise (IndexError i)).
  { intros Hi. unfold tuple_getitem. simpl List.length.
    destruct (Z.ltb_spec i 0) as [Hn|Hn].
    - replace (0 <=? i + Z.of_nat 3) with false by (symmetry; apply Z.leb_gt; lia).
      reflexivity.
    - replace (i <? Z.of_nat 3) with false by (symmetry; apply Z.ltb_ge; lia).
      rewrite andb_false_r. reflexivity. }
  split; [|split].
  - split.
    + intros [v Hv].
      destruct (Z_lt_dec i (-3)) as [Hlo|Hlo];
        [rewrite Hout in Hv by lia; discriminate Hv|].
      destruct (Z_lt_dec i 3) as [Hhi|Hhi];
        [lia|rewrite Hout in Hv by lia; discriminate Hv].
    + intros Hi.
      destruct Hcases as [->|[->|[->|[->|[->|[->|Hc]]]]]];
        try (eexists; reflexivity). contradiction.
  - intros v Hi Hv.
    destruct Hcases as [->|[->|[->|[->|[->|[->|Hc]]]]]]; try lia;
      simpl in Hv; injection Hv as <-; split; reflexivity.
  - exact Hout.
Qed.

Lemma Triangle_getitem_constructed_witness :
  let v0 := Vector.mk 0 0 0 in
  let v1 := Vector.mk 1 0 0 in
  let v2 := Vector.mk 0 1 0 in
  Triangle.__getitem__ (Triangle.mk tt [v0; v1; v2]) (-1) = ret v2 /\
  Triangle.__getitem__ (Triangle.mk tt [v0; v1; v2]) 3 = raise (IndexError 3).
Proof.
  intros v0 v1 v2.
  pose (base_init := fun _ : unit => @ret unit tt).
  split.
  - apply (proj1 (proj2 (Triangle_getitem_constructed base_init [v0; v1; v2] tt
                           (Triangle.mk tt [v0; v1; v2]) 2 eq_refl)) v2);
      [lia|reflexivity].
  - apply (proj2 (proj2 (Triangle_getitem_constructed base_init [v0; v1; v2] tt
                           (Triangle.mk tt [v0; v1; v2]) 3 eq_refl))).
    lia.
Defined.
